(** * file_manager: upload validation, the File table and the three views

    A shallow embedding of the Django application [file_manager]
    (forms.py, models.py, migrations/0001_initial.py, views.py) and the
    properties of its behaviour.

    Python exceptions are values of the type [except]; the database and the
    message storage are threaded through the views as explicit state. *)

From stdpp Require Import base strings list gmap sorting pretty.
From Stdlib Require Import ZArith.
From Stdlib.Strings Require Import Byte.

Open Scope Z_scope.

(** ** Exceptions as results *)

Inductive except (E A : Type) : Type :=
| Raise (e : E)
| Return (a : A).
Arguments Raise {E A} e.
Arguments Return {E A} a.

Definition bind_except {E A B} (m : except E A) (k : A → except E B) : except E B :=
  match m with
  | Raise e => Raise e
  | Return a => k a
  end.

Notation "'try!' x ← m ; k" := (bind_except m (λ x, k))
  (at level 10, x name, m at level 100, k at level 200, only parsing).

(** ** The framework values the application reads *)

(** [django.core.exceptions.ValidationError(message)]. *)
Record ValidationError := mkValidationError { message : string }.

(** What a view can raise: [django.http.Http404] from
    [get_object_or_404], and [KeyError] from a subscript on a dict. *)
Inductive Exception :=
| Http404
| KeyError (key : string).

(** An uploaded file as the application sees it: the attributes [name],
    [content_type] and [size], and the bytes that [read()] returns. *)
Module uploadedfile.
Record UploadedFile := mk {
  name : string;
  content_type : string;
  size : Z;
  data : list byte;
}.
Definition read (f : UploadedFile) : list byte := data f.
End uploadedfile.
Abbreviation UploadedFile := uploadedfile.UploadedFile.

(** ** forms.py *)

Module forms.

Definition ALLOWED_IMAGE_TYPES : list string :=
  ["image/jpeg"; "image/png"; "image/gif"].

Definition MAX_FILE_SIZE : Z := 5 * 1024 * 1024.

(** [FileUploadForm.clean_file], with [self.cleaned_data['file']] as its
    argument.  The f-string formats the integer quotient in decimal. *)
Definition clean_file (uploaded_file : UploadedFile)
    : except ValidationError UploadedFile :=
  if bool_decide (uploadedfile.content_type uploaded_file ∉ ALLOWED_IMAGE_TYPES) then
    Raise (mkValidationError "Invalid file type. Only image files are allowed.")
  else if bool_decide (uploadedfile.size uploaded_file > MAX_FILE_SIZE) then
    Raise (mkValidationError
             ("File size exceeds the limit of "
              +:+ pretty (MAX_FILE_SIZE `div` (1024 * 1024)) +:+ " MB."))
  else
    Return uploaded_file.

(** The form after [FileUploadForm(...)] and the cleaning that [is_valid]
    and [errors] force: [errors] maps a field name to its messages and
    [cleaned_data] a field name to its cleaned value. *)
Record Form := mkForm {
  is_bound : bool;
  errors : gmap string (list string);
  cleaned_data : gmap string UploadedFile;
}.

Definition is_valid (form : Form) : bool :=
  is_bound form && bool_decide (errors form = ∅).

Section FileUploadForm.

(** [forms.FileField().clean]: the checks the framework's field makes on
    the submitted value before [clean_file] sees it. *)
Variable FileField_clean :
  option UploadedFile → except ValidationError UploadedFile.

(** Cleaning of the only field, [file]: the field's own [clean], whose
    result becomes [cleaned_data['file']], then [clean_file]. *)
Definition clean_fields (files : gmap string UploadedFile)
    : except ValidationError UploadedFile :=
  try! value ← FileField_clean (files !! "file");
  clean_file value.

(** [FileUploadForm()]. *)
Definition FileUploadForm_unbound : Form :=
  {| is_bound := false; errors := ∅; cleaned_data := ∅ |}.

(** [FileUploadForm(request.POST, request.FILES)]; the form has no field
    that reads [request.POST]. *)
Definition FileUploadForm (files : gmap string UploadedFile) : Form :=
  match clean_fields files with
  | Raise e =>
      {| is_bound := true;
         errors := {["file" := [message e]]};
         cleaned_data := ∅ |}
  | Return value =>
      {| is_bound := true;
         errors := ∅;
         cleaned_data := {["file" := value]} |}
  end.

End FileUploadForm.

(** The checks of the framework's [FileField] with its defaults
    ([required=True], [allow_empty_file=False]), to run the views on
    concrete requests. *)
Definition FileField_clean_default (data : option UploadedFile)
    : except ValidationError UploadedFile :=
  match data with
  | None => Raise (mkValidationError "This field is required.")
  | Some f =>
      if bool_decide (uploadedfile.name f = EmptyString) then
        Raise (mkValidationError
                 "No file was submitted. Check the encoding type on the form.")
      else if bool_decide (uploadedfile.size f = 0) then
        Raise (mkValidationError "The submitted file is empty.")
      else Return f
  end.

End forms.

(** ** models.py and migrations/0001_initial.py *)

Module models.

(** An instance of [File].  [uploaded_at] is [None] until [auto_now_add]
    fills it when the instance is saved. *)
Record File := mk {
  id : Z;
  name : string;
  content : list byte;
  content_type : string;
  uploaded_at : option Z;
}.

(** The table of the model: its rows by primary key [id], and the next
    value of the auto-increment behind [BigAutoField]. *)
Record Table := mkTable {
  rows : gmap Z File;
  next_id : Z;
}.

Definition empty : Table := {| rows := ∅; next_id := 1 |}.

(** [File.objects.create(name=..., content=..., content_type=...)] at time
    [now]: the saved instance and the table after the insert. *)
Definition create (now : Z) (name : string) (content : list byte)
    (content_type : string) (t : Table) : File * Table :=
  let obj := {| id := next_id t; name := name; content := content;
                content_type := content_type; uploaded_at := Some now |} in
  (obj, {| rows := <[next_id t := obj]> (rows t); next_id := next_id t + 1 |}).

(** [get_object_or_404(File, id=file_id)]. *)
Definition get_object_or_404 (t : Table) (file_id : Z) : except Exception File :=
  match rows t !! file_id with
  | Some file => Return file
  | None => Raise Http404
  end.

(** [File.objects.all()], in no particular order. *)
Definition all (t : Table) : list File := (map_to_list (rows t)).*2.

(** [.order_by('-id')]: [id_desc f g] when [f] may come before [g]. *)
Definition id_desc (f g : File) : Prop := id g ≤ id f.

#[global] Instance id_desc_dec f g : Decision (id_desc f g).
Proof. unfold id_desc. apply _. Defined.

Definition order_by_id_desc (l : list File) : list File :=
  merge_sort id_desc l.

(** The tables the application can be in: the empty one of the migration,
    and any table after a [create]. *)
Inductive reachable : Table → Prop :=
| reachable_empty : reachable empty
| reachable_create now name content content_type t :
    reachable t → reachable (create now name content content_type t).2.

(** Every row sits under its own [id], which the auto-increment has
    already passed. *)
Definition table_ok (t : Table) : Prop :=
  ∀ k f, rows t !! k = Some f → id f = k ∧ k < next_id t.

(** [File.__str__]. *)
Definition __str__ (self : File) : string := name self.

End models.
Abbreviation File := models.File.

(** ** views.py *)

Module views.

(** The module's own copies of the two constants of forms.py; no view reads
    them. *)
Definition ALLOWED_IMAGE_TYPES : list string :=
  ["image/jpeg"; "image/png"; "image/gif"].

Definition MAX_FILE_SIZE : Z := 5 * 1024 * 1024.

(** The part of the request the views read: [request.method] and
    [request.FILES]. *)
Record HttpRequest := mkRequest {
  method : string;
  FILES : gmap string UploadedFile;
}.

(** What the views return: [render(request, template, context)] with the
    context's [form] and [files], [redirect(to)], and
    [HttpResponse(content, ...)] with its headers. *)
Inductive HttpResponse :=
| render (template_name : string) (form : forms.Form) (files : list File)
| redirect (to : string)
| mkHttpResponse (content : list byte) (headers : gmap string string).

(** The status the framework gives each of them. *)
Definition status_code (response : HttpResponse) : Z :=
  match response with
  | render _ _ _ => 200
  | redirect _ => 302
  | mkHttpResponse _ _ => 200
  end.

(** The status the client receives for a view's outcome: the framework
    answers [Http404] with a not-found page and any other exception with a
    server error. *)
Definition response_status (outcome : except Exception HttpResponse) : Z :=
  match outcome with
  | Return response => status_code response
  | Raise Http404 => 404
  | Raise (KeyError _) => 500
  end.

(** [HttpResponse(content, content_type=content_type)]. *)
Definition new_HttpResponse (content : list byte) (content_type : string)
    : HttpResponse :=
  mkHttpResponse content {["Content-Type" := content_type]}.

(** [response[header] = value]. *)
Definition setitem (response : HttpResponse) (header value : string)
    : HttpResponse :=
  match response with
  | mkHttpResponse content headers =>
      mkHttpResponse content (<[header := value]> headers)
  | _ => response
  end.

Definition headers_of (response : HttpResponse) : gmap string string :=
  match response with
  | mkHttpResponse _ headers => headers
  | _ => ∅
  end.

Definition content_of (response : HttpResponse) : list byte :=
  match response with
  | mkHttpResponse content _ => content
  | _ => []
  end.

(** The double quote character of the f-string in [download_file]. *)
Definition dquote : string := String (Ascii.ascii_of_byte x22) EmptyString.

(** The database and the message storage, shared by all requests. *)
Record World := mkWorld {
  db : models.Table;
  messages : list string;
}.

Section upload.

Variable FileField_clean :
  option UploadedFile → except ValidationError UploadedFile.

(** [upload_file(request)], served at time [now]. *)
Definition upload_file (now : Z) (request : HttpRequest) (w : World)
    : except Exception HttpResponse * World :=
  let page form :=
    let files := take 5 (models.order_by_id_desc (models.all (db w))) in
    (Return (render "file_manager/upload.html" form files), w) in
  if bool_decide (method request = "POST") then
    let form := forms.FileUploadForm FileField_clean (FILES request) in
    if forms.is_valid form then
      match forms.cleaned_data form !! "file" with
      | None => (Raise (KeyError "file"), w)
      | Some uploaded_file =>
          let '(_, db') :=
            models.create now
              (uploadedfile.name uploaded_file)
              (uploadedfile.read uploaded_file)
              (uploadedfile.content_type uploaded_file)
              (db w) in
          (Return (redirect "upload_file"),
           {| db := db';
              messages := messages w ++ ["File uploaded successfully!"] |})
      end
    else page form
  else page forms.FileUploadForm_unbound.

End upload.

(** [download_file(request, file_id)]. *)
Definition download_file (request : HttpRequest) (file_id : Z) (t : models.Table)
    : except Exception HttpResponse :=
  try! file ← models.get_object_or_404 t file_id;
  let response :=
    new_HttpResponse (models.content file) (models.content_type file) in
  let response :=
    setitem response "Content-Disposition"
      ("attachment; filename=" +:+ dquote +:+ models.name file +:+ dquote) in
  Return response.

(** [display_image(request, file_id)]. *)
Definition display_image (request : HttpRequest) (file_id : Z) (t : models.Table)
    : except Exception HttpResponse :=
  try! file ← models.get_object_or_404 t file_id;
  Return (new_HttpResponse (models.content file) (models.content_type file)).

End views.

(** ** Concrete requests and tables, to run the definitions on *)

Module sample.

Definition png10 : UploadedFile :=
  uploadedfile.mk "a.png" "image/png" 10
    [x89; x50; x4e; x47; x0d; x0a; x1a; x0a; x00; x00].

(** The same declared type and size under another name and other bytes. *)
Definition png10_renamed : UploadedFile :=
  uploadedfile.mk "holiday.png" "image/png" 10
    [x00; x01; x02; x03; x04; x05; x06; x07; x08; x09].

Definition big_pdf : UploadedFile :=
  uploadedfile.mk "scan.pdf" "application/pdf" 7340032 [x25; x50; x44; x46].

Definition get : views.HttpRequest := views.mkRequest "GET" ∅.

Definition post (f : UploadedFile) : views.HttpRequest :=
  views.mkRequest "POST" {["file" := f]}.

(** One row, created by the upload of [png10] at time 1000. *)
Definition table1 : models.Table :=
  (models.create 1000 "a.png" (uploadedfile.data png10) "image/png"
     models.empty).2.

Definition row1 : File :=
  models.mk 1 "a.png" (uploadedfile.data png10) "image/png" (Some 1000).

(** A name with a double quote and a semicolon in it. *)
Definition odd_name : string := "we" +:+ views.dquote +:+ "ird;.png".

Definition odd_row : File := models.mk 1 odd_name [x47] "image/gif" (Some 5).

Definition odd_table : models.Table :=
  (models.create 5 odd_name [x47] "image/gif" models.empty).2.

(** Seven rows, created one after the other in the empty table. *)
Definition table7 : models.Table :=
  let t1 := (models.create 11 "a.png" [x01] "image/png" models.empty).2 in
  let t2 := (models.create 12 "b.gif" [x02] "image/gif" t1).2 in
  let t3 := (models.create 13 "c.jpg" [x03] "image/jpeg" t2).2 in
  let t4 := (models.create 14 "d.png" [x04] "image/png" t3).2 in
  let t5 := (models.create 15 "e.gif" [x05] "image/gif" t4).2 in
  let t6 := (models.create 16 "f.jpg" [x06] "image/jpeg" t5).2 in
  (models.create 17 "g.png" [x07] "image/png" t6).2.

Definition recent7 : list File :=
  [ models.mk 7 "g.png" [x07] "image/png" (Some 17);
    models.mk 6 "f.jpg" [x06] "image/jpeg" (Some 16);
    models.mk 5 "e.gif" [x05] "image/gif" (Some 15);
    models.mk 4 "d.png" [x04] "image/png" (Some 14);
    models.mk 3 "c.jpg" [x03] "image/jpeg" (Some 13) ].

End sample.

(** * Properties *)

Ltac by_computation := apply (bool_decide_unpack _); vm_compute; exact I.

(** ** Validation: [clean_file] *)

Lemma allowed_type_iff (ct : string) :
  ct ∈ forms.ALLOWED_IMAGE_TYPES ↔
  ct = "image/jpeg" ∨ ct = "image/png" ∨ ct = "image/gif".
Proof.
  unfold forms.ALLOWED_IMAGE_TYPES.
  rewrite !elem_of_cons, elem_of_nil. tauto.
Qed.

Lemma size_message :
  "File size exceeds the limit of "
    +:+ pretty (forms.MAX_FILE_SIZE `div` (1024 * 1024)) +:+ " MB."
  = "File size exceeds the limit of 5 MB.".
Proof. vm_compute. reflexivity. Qed.

Lemma MAX_FILE_SIZE_bytes : forms.MAX_FILE_SIZE = 5242880.
Proof. reflexivity. Qed.

(** C1: a payload whose declared content type is none of image/jpeg,
    image/png, image/gif is rejected with the invalid-type message, whatever
    its name, its size and its bytes. *)
Theorem clean_file_rejects_other_types
    (name ct : string) (size : Z) (data : list byte) :
  ct ∉ ["image/jpeg"; "image/png"; "image/gif"] →
  forms.clean_file (uploadedfile.mk name ct size data)
  = Raise (mkValidationError "Invalid file type. Only image files are allowed.").
Proof.
  intros Hct. unfold forms.clean_file. cbn [uploadedfile.content_type].
  by rewrite bool_decide_eq_true_2.
Qed.

Lemma clean_file_rejects_other_types_witness :
  ("application/pdf" ∉ ["image/jpeg"; "image/png"; "image/gif"]) ∧
  (forms.clean_file (uploadedfile.mk "cv.pdf" "application/pdf" 9000000 [x25; x50])
   = Raise (mkValidationError "Invalid file type. Only image files are allowed.")).
Proof.
  assert (H : "application/pdf" ∉ ["image/jpeg"; "image/png"; "image/gif"])
    by (by_computation).
  split; [exact H | apply (clean_file_rejects_other_types _ _ _ _ H)].
Defined.

(** C2: a payload of an allowed content type whose size is strictly over
    5,242,880 bytes is rejected with the 5 MB message. *)
Theorem clean_file_rejects_large (f : UploadedFile) :
  uploadedfile.content_type f ∈ ["image/jpeg"; "image/png"; "image/gif"] →
  uploadedfile.size f > 5242880 →
  forms.clean_file f
  = Raise (mkValidationError "File size exceeds the limit of 5 MB.").
Proof.
  intros Hct Hsize. unfold forms.clean_file.
  rewrite bool_decide_eq_false_2 by (intros Hn; exact (Hn Hct)).
  rewrite bool_decide_eq_true_2 by (rewrite MAX_FILE_SIZE_bytes; exact Hsize).
  by rewrite size_message.
Qed.

Lemma clean_file_rejects_large_witness :
  forms.clean_file (uploadedfile.mk "big.gif" "image/gif" 5242881 [x47; x49; x46])
  = Raise (mkValidationError "File size exceeds the limit of 5 MB.").
Proof.
  apply clean_file_rejects_large; cbn.
  - by_computation.
  - lia.
Defined.



Lemma clean_fields_clean_file FC (files : gmap string UploadedFile) f e :
  FC (files !! "file") = Return f →
  forms.clean_file f = Raise e →
  forms.clean_fields FC files = Raise e.
Proof. unfold forms.clean_fields. intros -> Hclean. exact Hclean. Qed.

Lemma FileUploadForm_rejected FC (files : gmap string UploadedFile) e :
  forms.clean_fields FC files = Raise e →
  forms.FileUploadForm FC files
  = forms.mkForm true {["file" := [message e]]} ∅.
Proof. unfold forms.FileUploadForm. by intros ->. Qed.

Lemma rejected_form_invalid (msgs : list string) :
  forms.is_valid (forms.mkForm true {["file" := msgs]} ∅) = false.
Proof.
  unfold forms.is_valid. cbn. apply bool_decide_eq_false_2.
  intros Hempty. apply (f_equal (.!! "file")) in Hempty.
  by rewrite lookup_singleton_eq, lookup_empty in Hempty.
Qed.

(** C4: a payload that is of a type not allowed and also over 5,242,880
    bytes is rejected with the invalid-type message, the first check that
    fails; the bound form then carries that one message for the field and
    nothing about the size. *)
Theorem clean_file_type_before_size
    (FC : option UploadedFile → except ValidationError UploadedFile)
    (files : gmap string UploadedFile) (f : UploadedFile) :
  uploadedfile.content_type f ∉ ["image/jpeg"; "image/png"; "image/gif"] →
  uploadedfile.size f > 5242880 →
  FC (files !! "file") = Return f →
  forms.clean_file f
  = Raise (mkValidationError "Invalid file type. Only image files are allowed.")
  ∧ forms.errors (forms.FileUploadForm FC files)
    = {["file" := ["Invalid file type. Only image files are allowed."]]}.
Proof.
  intros Hct _ HFC.
  assert (forms.clean_file f = Raise (mkValidationError
            "Invalid file type. Only image files are allowed.")) as Hclean.
  { destruct f as [name ct size data].
    by apply clean_file_rejects_other_types. }
  split; [exact Hclean|].
  by rewrite (FileUploadForm_rejected _ _ _ (clean_fields_clean_file _ _ _ _ HFC Hclean)).
Qed.

Lemma clean_file_type_before_size_witness :
  forms.clean_file sample.big_pdf
  = Raise (mkValidationError "Invalid file type. Only image files are allowed.")
  ∧ forms.errors
      (forms.FileUploadForm forms.FileField_clean_default {["file" := sample.big_pdf]})
    = {["file" := ["Invalid file type. Only image files are allowed."]]}.
Proof.
  apply clean_file_type_before_size.
  - by_computation.
  - cbn. lia.
  - vm_compute. reflexivity.
Defined.

(** ** The table: [create], [get_object_or_404], [order_by('-id')] *)

Section table_facts.

Implicit Types (t : models.Table) (f g : File) (l : list File).

Lemma table_ok_empty : models.table_ok models.empty.
Proof. intros k f. cbn. by rewrite lookup_empty. Qed.

Lemma table_ok_create now name content ct t :
  models.table_ok t → models.table_ok (models.create now name content ct t).2.
Proof.
  intros Hok k f. cbn. rewrite lookup_insert.
  case_decide as Hk.
  - intros [= <-]. cbn. lia.
  - intros Hf. destruct (Hok k f Hf). lia.
Qed.

Lemma reachable_table_ok t : models.reachable t → models.table_ok t.
Proof.
  induction 1 as [|now name content ct t _ IH].
  - apply table_ok_empty.
  - by apply table_ok_create.
Qed.

Lemma next_id_fresh t : models.table_ok t → models.rows t !! models.next_id t = None.
Proof.
  intros Hok. destruct (models.rows t !! models.next_id t) as [f|] eqn:Hf; [|done].
  destruct (Hok _ _ Hf). lia.
Qed.

Lemma elem_of_all t f :
  f ∈ models.all t ↔ ∃ k, models.rows t !! k = Some f.
Proof.
  unfold models.all. rewrite list_elem_of_fmap. split.
  - intros [[k f'] [-> Hin]]. exists k. by apply elem_of_map_to_list.
  - intros [k Hk]. exists (k, f). split; [done|]. by apply elem_of_map_to_list.
Qed.

Lemma all_ok t f :
  models.table_ok t → f ∈ models.all t →
  models.rows t !! models.id f = Some f ∧ models.id f < models.next_id t.
Proof.
  intros Hok [k Hk]%elem_of_all. destruct (Hok _ _ Hk) as [<- ?]. done.
Qed.

Lemma all_create now name content ct t :
  models.table_ok t →
  models.all (models.create now name content ct t).2
  ≡ₚ (models.create now name content ct t).1 :: models.all t.
Proof.
  intros Hok. unfold models.all. cbn.
  rewrite map_to_list_insert by by apply next_id_fresh.
  done.
Qed.

#[local] Instance id_desc_total : Total models.id_desc.
Proof. intros f g. unfold models.id_desc. lia. Qed.

#[local] Instance id_desc_trans : Transitive models.id_desc.
Proof. intros f g h. unfold models.id_desc. lia. Qed.

Lemma order_by_sorted l : Sorted models.id_desc (models.order_by_id_desc l).
Proof. apply (Sorted_merge_sort _). Qed.

Lemma order_by_perm l : models.order_by_id_desc l ≡ₚ l.
Proof. apply merge_sort_Permutation. Qed.

Lemma HdRel_Forall {A} (R : relation A) (x : A) (xs : list A) :
  Forall (R x) xs → HdRel R x xs.
Proof. destruct 1; by constructor. Qed.

(** The row just created has the largest [id], so it heads the listing and
    the rest of the listing is the listing before. *)
Lemma order_by_create now name content ct t :
  models.table_ok t →
  models.order_by_id_desc (models.all (models.create now name content ct t).2)
  = (models.create now name content ct t).1
    :: models.order_by_id_desc (models.all t).
Proof.
  intros Hok.
  pose proof (table_ok_create now name content ct t Hok) as Hok'.
  pose proof (all_create now name content ct t Hok) as Hperm.
  set (t' := (models.create now name content ct t).2) in *.
  set (obj := (models.create now name content ct t).1) in *.
  assert (Hall : ∀ x, x ∈ obj :: models.order_by_id_desc (models.all t) →
                      x ∈ models.all t').
  { intros x. rewrite Hperm, !elem_of_cons, order_by_perm. tauto. }
  apply (Sorted_unique_strong models.id_desc).
  - intros x1 x2 Hx1 Hx2 H12 H21.
    rewrite order_by_perm in Hx1. apply Hall in Hx2.
    destruct (all_ok _ _ Hok' Hx1) as [E1 _], (all_ok _ _ Hok' Hx2) as [E2 _].
    unfold models.id_desc in *.
    assert (models.id x1 = models.id x2) as E by lia.
    rewrite E in E1. congruence.
  - apply order_by_sorted.
  - constructor; [apply order_by_sorted|].
    apply HdRel_Forall, Forall_forall. intros g Hg.
    rewrite order_by_perm in Hg.
    destruct (all_ok _ _ Hok Hg) as [_ Hlt].
    unfold models.id_desc, obj. cbn. lia.
  - by rewrite !order_by_perm.
Qed.

End table_facts.

(** C5: whatever the table, after [create] of a name, a content and a
    content type, fetching the [id] of the created row returns a row with
    that name, content and content type, whose [uploaded_at] is set. *)
Theorem create_then_get (t : models.Table) (now : Z)
    (name : string) (content : list byte) (content_type : string) :
  ∃ file,
    models.get_object_or_404
      (models.create now name content content_type t).2
      (models.id (models.create now name content content_type t).1)
    = Return file
    ∧ models.name file = name
    ∧ models.content file = content
    ∧ models.content_type file = content_type
    ∧ models.uploaded_at file ≠ None.
Proof.
  eexists. unfold models.get_object_or_404. cbn.
  rewrite lookup_insert_eq. by repeat split.
Qed.

(** C6: from any table the application can reach, after seven more rows are
    created the listing of the upload page, [order_by('-id')[:5]], is
    exactly the last five of them, newest first: their ids descend from the
    seventh's, and a GET of the upload page renders that list. *)
Theorem recent_after_seven_creates
    (FC : option UploadedFile → except ValidationError UploadedFile)
    (t : models.Table) (request : views.HttpRequest)
    (at_time : Z) (msgs : list string)
    (now1 now2 now3 now4 now5 now6 now7 : Z)
    (name1 name2 name3 name4 name5 name6 name7 : string)
    (c1 c2 c3 c4 c5 c6 c7 : list byte)
    (ct1 ct2 ct3 ct4 ct5 ct6 ct7 : string) :
  models.reachable t →
  views.method request = "GET" →
  let n := models.next_id t in
  let t1 := (models.create now1 name1 c1 ct1 t).2 in
  let t2 := (models.create now2 name2 c2 ct2 t1).2 in
  let t3 := (models.create now3 name3 c3 ct3 t2).2 in
  let t4 := (models.create now4 name4 c4 ct4 t3).2 in
  let t5 := (models.create now5 name5 c5 ct5 t4).2 in
  let t6 := (models.create now6 name6 c6 ct6 t5).2 in
  let t7 := (models.create now7 name7 c7 ct7 t6).2 in
  let recent :=
    [ models.mk (n + 6) name7 c7 ct7 (Some now7);
      models.mk (n + 5) name6 c6 ct6 (Some now6);
      models.mk (n + 4) name5 c5 ct5 (Some now5);
      models.mk (n + 3) name4 c4 ct4 (Some now4);
      models.mk (n + 2) name3 c3 ct3 (Some now3) ] in
  take 5 (models.order_by_id_desc (models.all t7)) = recent
  ∧ (views.upload_file FC at_time request (views.mkWorld t7 msgs)).1
    = Return (views.render "file_manager/upload.html"
                forms.FileUploadForm_unbound recent).
Proof.
  intros Hreach Hget n t1 t2 t3 t4 t5 t6 t7 recent.
  pose proof (reachable_table_ok _ Hreach) as Hok.
  pose proof (table_ok_create now1 name1 c1 ct1 _ Hok) as Hok1. fold t1 in Hok1.
  pose proof (table_ok_create now2 name2 c2 ct2 _ Hok1) as Hok2. fold t2 in Hok2.
  pose proof (table_ok_create now3 name3 c3 ct3 _ Hok2) as Hok3. fold t3 in Hok3.
  pose proof (table_ok_create now4 name4 c4 ct4 _ Hok3) as Hok4. fold t4 in Hok4.
  pose proof (table_ok_create now5 name5 c5 ct5 _ Hok4) as Hok5. fold t5 in Hok5.
  pose proof (table_ok_create now6 name6 c6 ct6 _ Hok5) as Hok6. fold t6 in Hok6.
  assert (take 5 (models.order_by_id_desc (models.all t7)) = recent) as Hrecent.
  { unfold t7. rewrite (order_by_create _ _ _ _ _ Hok6).
    unfold t6. rewrite (order_by_create _ _ _ _ _ Hok5).
    unfold t5. rewrite (order_by_create _ _ _ _ _ Hok4).
    unfold t4. rewrite (order_by_create _ _ _ _ _ Hok3).
    unfold t3. rewrite (order_by_create _ _ _ _ _ Hok2).
    cbn [firstn]. unfold recent, t2, t1, n.
    cbn [models.create fst snd models.next_id].
    repeat (apply (f_equal2 cons)); try reflexivity; (f_equal; lia). }
  split; [exact Hrecent|].
  unfold views.upload_file.
  rewrite bool_decide_eq_false_2 by (rewrite Hget; discriminate).
  cbn [fst views.db]. by rewrite Hrecent.
Qed.

Lemma recent_after_seven_creates_witness :
  take 5 (models.order_by_id_desc (models.all sample.table7)) = sample.recent7
  ∧ (views.upload_file forms.FileField_clean_default 20 sample.get
       (views.mkWorld sample.table7 [])).1
    = Return (views.render "file_manager/upload.html"
                forms.FileUploadForm_unbound sample.recent7).
Proof.
  exact (recent_after_seven_creates forms.FileField_clean_default
           models.empty sample.get 20 []
           11 12 13 14 15 16 17
           "a.png" "b.gif" "c.jpg" "d.png" "e.gif" "f.jpg" "g.png"
           [x01] [x02] [x03] [x04] [x05] [x06] [x07]
           "image/png" "image/gif" "image/jpeg" "image/png"
           "image/gif" "image/jpeg" "image/png"
           models.reachable_empty eq_refl).
Defined.

(** ** The views *)

Lemma get_object_found t file_id file :
  models.rows t !! file_id = Some file →
  models.get_object_or_404 t file_id = Return file.
Proof. unfold models.get_object_or_404. by intros ->. Qed.

Lemma get_object_missing t file_id :
  models.rows t !! file_id = None →
  models.get_object_or_404 t file_id = Raise Http404.
Proof. unfold models.get_object_or_404. by intros ->. Qed.

Lemma substring_front (n s : string) :
  String.substring 0 (String.length n) (n +:+ s) = n.
Proof.
  induction n as [|b n IHn].
  - by destruct s.
  - change (String b n +:+ s) with (String b (n +:+ s)). cbn.
    f_equal. exact IHn.
Qed.

Lemma substring_middle (p n s : string) :
  String.substring (String.length p) (String.length n) (p +:+ n +:+ s) = n.
Proof.
  induction p as [|a p IH].
  - exact (substring_front n s).
  - change (String a p +:+ n +:+ s) with (String a (p +:+ n +:+ s)).
    cbn. exact IH.
Qed.

Lemma length_app_string (p s : string) :
  String.length (p +:+ s) = (String.length p + String.length s)%nat.
Proof.
  induction p as [|a p IH]; [done|].
  change (String a p +:+ s) with (String a (p +:+ s)). cbn. by rewrite IH.
Qed.





Lemma FileUploadForm_accepted FC (files : gmap string UploadedFile) f :
  forms.clean_fields FC files = Return f →
  forms.FileUploadForm FC files = forms.mkForm true ∅ {["file" := f]}.
Proof. unfold forms.FileUploadForm. by intros ->. Qed.

(** An accepted POST creates one row from the file's name, bytes and
    declared type, adds the success message and redirects. *)
Lemma accepted_upload_creates FC now request w f :
  views.method request = "POST" →
  forms.clean_fields FC (views.FILES request) = Return f →
  views.upload_file FC now request w
  = (Return (views.redirect "upload_file"),
     views.mkWorld
       (models.create now (uploadedfile.name f) (uploadedfile.data f)
          (uploadedfile.content_type f) (views.db w)).2
       (views.messages w ++ ["File uploaded successfully!"])).
Proof.
  intros Hpost Hacc. unfold views.upload_file.
  rewrite bool_decide_eq_true_2 by exact Hpost.
  rewrite (FileUploadForm_accepted _ _ _ Hacc).
  unfold forms.is_valid. cbn [forms.is_bound forms.errors forms.cleaned_data].
  rewrite bool_decide_eq_true_2 by reflexivity.
  cbn [andb]. by rewrite lookup_singleton_eq.
Qed.

(** The subscript [cleaned_data['file']] is only reached on a valid form,
    where the key is present: [upload_file] raises nothing. *)
Lemma upload_file_returns FC now request w :
  ∃ response, (views.upload_file FC now request w).1 = Return response.
Proof.
  destruct (decide (views.method request = "POST")) as [Hpost|Hother].
  - destruct (forms.clean_fields FC (views.FILES request)) as [e|f] eqn:Hclean.
    + unfold views.upload_file.
      rewrite bool_decide_eq_true_2 by exact Hpost.
      rewrite (FileUploadForm_rejected _ _ _ Hclean), rejected_form_invalid.
      by eexists.
    + rewrite (accepted_upload_creates _ _ _ _ _ Hpost Hclean). by eexists.
  - unfold views.upload_file.
    rewrite bool_decide_eq_false_2 by exact Hother. by eexists.
Qed.

(** The upload of ten bytes of image/png named a.png, then the listing and
    the download of the new id. *)
Example upload_png_scenario :
  let w0 := views.mkWorld models.empty [] in
  let '(outcome, w1) :=
    views.upload_file forms.FileField_clean_default 1000
      (sample.post sample.png10) w0 in
  outcome = Return (views.redirect "upload_file")
  ∧ views.db w1 = sample.table1
  ∧ take 1 (models.order_by_id_desc (models.all (views.db w1))) = [sample.row1]
  ∧ views.download_file sample.get 1 (views.db w1)
    = Return (views.mkHttpResponse (uploadedfile.data sample.png10)
                (<["Content-Disposition" :=
                     "attachment; filename=" +:+ views.dquote +:+ "a.png"
                     +:+ views.dquote]> {["Content-Type" := "image/png"]})).
Proof. vm_compute. by repeat split. Qed.

(** C9: a POST whose file the form's cleaning rejects creates no row and
    adds no message: the world is returned as it was, and the outcome is
    the upload page, rendered with status 200 and not a redirect, with the
    bound form, whose errors carry the reason under the field, and the
    listing of the unchanged table. *)
Theorem rejected_upload_changes_nothing
    (FC : option UploadedFile → except ValidationError UploadedFile)
    (now : Z) (request : views.HttpRequest) (w : views.World)
    (e : ValidationError) :
  views.method request = "POST" →
  forms.clean_fields FC (views.FILES request) = Raise e →
  ∃ form,
    views.upload_file FC now request w
    = (Return (views.render "file_manager/upload.html" form
                 (take 5 (models.order_by_id_desc (models.all (views.db w))))),
       w)
    ∧ form = forms.FileUploadForm FC (views.FILES request)
    ∧ forms.is_bound form = true
    ∧ forms.is_valid form = false
    ∧ forms.errors form !! "file" = Some [message e]
    ∧ views.response_status (views.upload_file FC now request w).1 = 200.
Proof.
  intros Hpost Hrej. eexists.
  assert (views.upload_file FC now request w
          = (Return (views.render "file_manager/upload.html"
                       (forms.FileUploadForm FC (views.FILES request))
                       (take 5 (models.order_by_id_desc
                                  (models.all (views.db w))))), w)) as Hup.
  { unfold views.upload_file.
    rewrite bool_decide_eq_true_2 by exact Hpost.
    rewrite (FileUploadForm_rejected _ _ _ Hrej).
    by rewrite rejected_form_invalid. }
  split; [exact Hup|]. split; [reflexivity|].
  rewrite Hup, (FileUploadForm_rejected _ _ _ Hrej).
  rewrite rejected_form_invalid. cbn.
  by rewrite lookup_singleton_eq.
Qed.

Lemma rejected_upload_changes_nothing_witness :
  ∃ form,
    views.upload_file forms.FileField_clean_default 2000
      (sample.post sample.big_pdf) (views.mkWorld sample.table1 [])
    = (Return (views.render "file_manager/upload.html" form
                 (take 5 (models.order_by_id_desc (models.all sample.table1)))),
       views.mkWorld sample.table1 [])
    ∧ form = forms.FileUploadForm forms.FileField_clean_default
               (views.FILES (sample.post sample.big_pdf))
    ∧ forms.is_bound form = true
    ∧ forms.is_valid form = false
    ∧ forms.errors form !! "file"
      = Some ["Invalid file type. Only image files are allowed."]
    ∧ views.response_status
        (views.upload_file forms.FileField_clean_default 2000
           (sample.post sample.big_pdf) (views.mkWorld sample.table1 [])).1
      = 200.
Proof.
  apply (rejected_upload_changes_nothing forms.FileField_clean_default 2000
           (sample.post sample.big_pdf) (views.mkWorld sample.table1 [])
           (mkValidationError "Invalid file type. Only image files are allowed.")).
  - reflexivity.
  - vm_compute. reflexivity.
Defined.




(** * Further properties of the forms, the table and the views *)

(** ** [clean_file] as a decision on the declared type and the size *)

Lemma views_constants_agree :
  views.ALLOWED_IMAGE_TYPES = forms.ALLOWED_IMAGE_TYPES
  ∧ views.MAX_FILE_SIZE = forms.MAX_FILE_SIZE.
Proof. by split. Qed.

Lemma clean_file_Return_iff (f g : UploadedFile) :
  forms.clean_file f = Return g ↔
  g = f
  ∧ uploadedfile.content_type f ∈ forms.ALLOWED_IMAGE_TYPES
  ∧ uploadedfile.size f ≤ forms.MAX_FILE_SIZE.
Proof.
  unfold forms.clean_file. repeat case_bool_decide; split.
  - discriminate.
  - intros (_ & Hin & _). contradiction.
  - discriminate.
  - intros (_ & _ & Hle). lia.
  - intros [= <-]. split; [done|]. split; [|lia].
    by destruct (decide (uploadedfile.content_type f ∈ forms.ALLOWED_IMAGE_TYPES)).
  - by intros (-> & _).
Qed.

(** X1: whatever [clean_file] accepts is the submitted file itself,
    unchanged, and it is within the policy: its declared type is one of the
    three image types and its size is at most 5,242,880 bytes. *)
Theorem clean_file_accepts_only_policy (f g : UploadedFile) :
  forms.clean_file f = Return g →
  g = f
  ∧ uploadedfile.content_type f ∈ ["image/jpeg"; "image/png"; "image/gif"]
  ∧ uploadedfile.size f ≤ 5242880.
Proof. intros Hret. by apply clean_file_Return_iff in Hret. Qed.

Lemma clean_file_accepts_only_policy_witness :
  sample.png10 = sample.png10
  ∧ uploadedfile.content_type sample.png10
    ∈ ["image/jpeg"; "image/png"; "image/gif"]
  ∧ uploadedfile.size sample.png10 ≤ 5242880.
Proof.
  apply (clean_file_accepts_only_policy sample.png10 sample.png10).
  vm_compute. reflexivity.
Defined.

(** X2: [clean_file] reads only the declared content type and the size:
    two files that agree on both are both accepted, or both rejected with
    the same error, whatever their names and bytes. *)
Theorem clean_file_ignores_name_and_bytes (f g : UploadedFile) :
  uploadedfile.content_type f = uploadedfile.content_type g →
  uploadedfile.size f = uploadedfile.size g →
  (forms.clean_file f = Return f ∧ forms.clean_file g = Return g)
  ∨ (∃ e, forms.clean_file f = Raise e ∧ forms.clean_file g = Raise e).
Proof.
  intros Hct Hsize. unfold forms.clean_file. rewrite Hct, Hsize.
  repeat case_bool_decide; eauto.
Qed.

Lemma clean_file_ignores_name_and_bytes_witness :
  (forms.clean_file sample.png10 = Return sample.png10
   ∧ forms.clean_file sample.png10_renamed = Return sample.png10_renamed)
  ∨ (∃ e, forms.clean_file sample.png10 = Raise e
          ∧ forms.clean_file sample.png10_renamed = Raise e).
Proof.
  apply (clean_file_ignores_name_and_bytes sample.png10 sample.png10_renamed);
    reflexivity.
Defined.

Lemma string_app_nil_inv (a s : string) : a +:+ s = a → s = EmptyString.
Proof.
  induction a as [|c a IH]; [done|].
  change (String c a +:+ s) with (String c (a +:+ s)).
  intros [= Heq]. by apply IH.
Qed.

(** X3: the type test is an exact comparison: an allowed type followed by
    anything more, such as a parameter after a semicolon, is not an allowed
    type and the file is rejected as of invalid type. *)
Theorem clean_file_rejects_type_with_suffix
    (name allowed suffix : string) (size : Z) (data : list byte) :
  allowed ∈ ["image/jpeg"; "image/png"; "image/gif"] →
  suffix ≠ EmptyString →
  forms.clean_file (uploadedfile.mk name (allowed +:+ suffix) size data)
  = Raise (mkValidationError "Invalid file type. Only image files are allowed.").
Proof.
  intros Hallowed Hsuffix. unfold forms.clean_file.
  cbn [uploadedfile.content_type].
  rewrite bool_decide_eq_true_2; [done|].
  unfold forms.ALLOWED_IMAGE_TYPES. intros Hin.
  rewrite !elem_of_cons, elem_of_nil in Hallowed, Hin.
  destruct Hallowed as [->|[->|[->|[]]]];
    destruct Hin as [Heq|[Heq|[Heq|[]]]];
    first [ by apply string_app_nil_inv in Heq
          | vm_compute in Heq; discriminate Heq ].
Qed.

Lemma clean_file_rejects_type_with_suffix_witness :
  forms.clean_file
    (uploadedfile.mk "a.png" ("image/png" +:+ "; charset=binary") 10 [x89])
  = Raise (mkValidationError "Invalid file type. Only image files are allowed.").
Proof.
  apply clean_file_rejects_type_with_suffix.
  - by_computation.
  - discriminate.
Defined.

(** ** What [upload_file] does to the world *)

Section upload_facts.

Context (FC : option UploadedFile → except ValidationError UploadedFile).
Implicit Types (request : views.HttpRequest) (w : views.World).

Lemma other_method_page now request w :
  views.method request ≠ "POST" →
  views.upload_file FC now request w
  = (Return (views.render "file_manager/upload.html" forms.FileUploadForm_unbound
               (take 5 (models.order_by_id_desc (models.all (views.db w))))),
     w).
Proof.
  intros Hother. unfold views.upload_file.
  by rewrite bool_decide_eq_false_2 by exact Hother.
Qed.

Lemma rejected_upload_page now request w e :
  views.method request = "POST" →
  forms.clean_fields FC (views.FILES request) = Raise e →
  views.upload_file FC now request w
  = (Return (views.render "file_manager/upload.html"
               (forms.mkForm true {["file" := [message e]]} ∅)
               (take 5 (models.order_by_id_desc (models.all (views.db w))))),
     w).
Proof.
  intros Hpost Hrej. unfold views.upload_file.
  rewrite bool_decide_eq_true_2 by exact Hpost.
  rewrite (FileUploadForm_rejected _ _ _ Hrej).
  by rewrite rejected_form_invalid.
Qed.

(** The two ways a request can end: the page with the world as it was, or,
    for a POST that cleans to a file, a redirect after one [create]. *)
Lemma upload_file_cases now request w :
  (∃ form,
     views.upload_file FC now request w
     = (Return (views.render "file_manager/upload.html" form
                  (take 5 (models.order_by_id_desc (models.all (views.db w))))),
        w))
  ∨ (∃ f,
       views.method request = "POST"
       ∧ forms.clean_fields FC (views.FILES request) = Return f
       ∧ views.upload_file FC now request w
         = (Return (views.redirect "upload_file"),
            views.mkWorld
              (models.create now (uploadedfile.name f) (uploadedfile.data f)
                 (uploadedfile.content_type f) (views.db w)).2
              (views.messages w ++ ["File uploaded successfully!"]))).
Proof.
  destruct (decide (views.method request = "POST")) as [Hpost|Hother].
  - destruct (forms.clean_fields FC (views.FILES request)) as [e|f] eqn:Hclean.
    + left. eexists. by apply rejected_upload_page.
    + right. exists f. split; [done|]. split; [done|].
      by apply accepted_upload_creates.
  - left. eexists. by apply other_method_page.
Qed.

End upload_facts.

Lemma create_size now name content ct t :
  models.table_ok t →
  size (models.rows (models.create now name content ct t).2)
  = S (size (models.rows t)).
Proof. intros Hok. cbn. by rewrite map_size_insert_None by by apply next_id_fresh. Qed.

(** X4: on a table in which every row sits under its own id below the
    counter, [upload_file] answers 302 exactly when the table has one row
    more than before, and 200 exactly when the table and the messages are
    what they were; it answers nothing else. *)
Theorem upload_redirects_iff_stored
    (FC : option UploadedFile → except ValidationError UploadedFile)
    (now : Z) (request : views.HttpRequest) (w : views.World) :
  models.table_ok (views.db w) →
  let r := views.upload_file FC now request w in
  (views.response_status r.1 = 302
   ↔ size (models.rows (views.db r.2)) = S (size (models.rows (views.db w))))
  ∧ (views.response_status r.1 = 200 ↔ r.2 = w)
  ∧ (views.response_status r.1 = 200 ∨ views.response_status r.1 = 302).
Proof.
  intros Hok r. unfold r.
  destruct (upload_file_cases FC now request w) as [[form ->]|(f & _ & _ & ->)];
    cbn [fst snd views.response_status views.status_code views.db].
  - split; [|split].
    + split; [discriminate|lia].
    + done.
    + by left.
  - rewrite (create_size _ _ _ _ _ Hok). split; [|split].
    + done.
    + split; [discriminate|]. intros Heq.
      apply (f_equal (λ w', models.next_id (views.db w'))) in Heq.
      cbn in Heq. lia.
    + by right.
Qed.

Lemma upload_redirects_iff_stored_witness :
  let r := views.upload_file forms.FileField_clean_default 2000
             (sample.post sample.png10) (views.mkWorld sample.table1 []) in
  (views.response_status r.1 = 302
   ↔ size (models.rows (views.db r.2)) = S (size (models.rows sample.table1)))
  ∧ (views.response_status r.1 = 200 ↔ r.2 = views.mkWorld sample.table1 [])
  ∧ (views.response_status r.1 = 200 ∨ views.response_status r.1 = 302).
Proof.
  apply (upload_redirects_iff_stored forms.FileField_clean_default 2000
           (sample.post sample.png10) (views.mkWorld sample.table1 [])).
  apply table_ok_create, table_ok_empty.
Defined.

(** X5: a POST whose field value the framework hands on as [f] is stored
    and answered with the redirect exactly when [f] is within the policy:
    an allowed declared type and at most 5,242,880 bytes. *)
Theorem upload_stored_iff_policy
    (FC : option UploadedFile → except ValidationError UploadedFile)
    (now : Z) (request : views.HttpRequest) (w : views.World)
    (f : UploadedFile) :
  views.method request = "POST" →
  FC (views.FILES request !! "file") = Return f →
  views.upload_file FC now request w
  = (Return (views.redirect "upload_file"),
     views.mkWorld
       (models.create now (uploadedfile.name f) (uploadedfile.data f)
          (uploadedfile.content_type f) (views.db w)).2
       (views.messages w ++ ["File uploaded successfully!"]))
  ↔ uploadedfile.content_type f ∈ ["image/jpeg"; "image/png"; "image/gif"]
    ∧ uploadedfile.size f ≤ 5242880.
Proof.
  intros Hpost HFC.
  assert (forms.clean_fields FC (views.FILES request) = forms.clean_file f)
    as Hfields by (unfold forms.clean_fields; by rewrite HFC).
  split.
  - intros Hup.
    destruct (forms.clean_file f) as [e|g] eqn:Hclean.
    + rewrite (rejected_upload_page FC now request w e Hpost Hfields) in Hup.
      discriminate Hup.
    + by apply clean_file_Return_iff in Hclean as (_ & ? & ?).
  - intros [Hct Hsize]. apply accepted_upload_creates; [done|].
    rewrite Hfields. by apply clean_file_Return_iff.
Qed.

Lemma upload_stored_iff_policy_witness :
  views.upload_file forms.FileField_clean_default 2000
    (sample.post sample.png10) (views.mkWorld sample.table1 [])
  = (Return (views.redirect "upload_file"),
     views.mkWorld
       (models.create 2000 (uploadedfile.name sample.png10)
          (uploadedfile.data sample.png10)
          (uploadedfile.content_type sample.png10) sample.table1).2
       ([] ++ ["File uploaded successfully!"]))
  ↔ uploadedfile.content_type sample.png10
      ∈ ["image/jpeg"; "image/png"; "image/gif"]
    ∧ uploadedfile.size sample.png10 ≤ 5242880.
Proof.
  apply (upload_stored_iff_policy forms.FileField_clean_default 2000
           (sample.post sample.png10) (views.mkWorld sample.table1 [])
           sample.png10).
  - reflexivity.
  - vm_compute. reflexivity.
Defined.

Lemma create_keeps_rows now name content ct t k f :
  models.table_ok t →
  models.rows t !! k = Some f →
  models.rows (models.create now name content ct t).2 !! k = Some f.
Proof.
  intros Hok Hk. cbn. rewrite lookup_insert_ne; [done|].
  intros <-. by rewrite next_id_fresh in Hk.
Qed.

(** X6: no request to [upload_file] alters or removes a stored row: a row
    found under an id before the request is found under it, field for
    field, after the request. *)
Theorem upload_keeps_rows
    (FC : option UploadedFile → except ValidationError UploadedFile)
    (now : Z) (request : views.HttpRequest) (w : views.World)
    (k : Z) (file : File) :
  models.table_ok (views.db w) →
  models.rows (views.db w) !! k = Some file →
  models.rows (views.db (views.upload_file FC now request w).2) !! k = Some file.
Proof.
  intros Hok Hk.
  destruct (upload_file_cases FC now request w) as [[form ->]|(f & _ & _ & ->)].
  - exact Hk.
  - by apply create_keeps_rows.
Qed.

Lemma upload_keeps_rows_witness :
  models.rows
    (views.db (views.upload_file forms.FileField_clean_default 2000
                 (sample.post sample.png10_renamed)
                 (views.mkWorld sample.table1 [])).2) !! 1
  = Some sample.row1.
Proof.
  apply upload_keeps_rows.
  - apply table_ok_create, table_ok_empty.
  - vm_compute. reflexivity.
Defined.

(** X7: the tables built from the empty one by [create] alone are closed
    under [upload_file]: whatever the request, the table after it is again
    such a table. *)
Theorem upload_keeps_reachable
    (FC : option UploadedFile → except ValidationError UploadedFile)
    (now : Z) (request : views.HttpRequest) (w : views.World) :
  models.reachable (views.db w) →
  models.reachable (views.db (views.upload_file FC now request w).2).
Proof.
  intros Hreach.
  destruct (upload_file_cases FC now request w) as [[form ->]|(f & _ & _ & ->)].
  - exact Hreach.
  - cbn [snd views.db]. by constructor.
Qed.

Lemma upload_keeps_reachable_witness :
  models.reachable
    (views.db (views.upload_file forms.FileField_clean_default 2000
                 (sample.post sample.png10)
                 (views.mkWorld models.empty [])).2).
Proof. apply upload_keeps_reachable. cbn. constructor. Defined.



(** X9: nothing is deduplicated: the same accepted POST served twice
    stores two rows under consecutive ids, both with the file's name, bytes
    and declared type, each with the time of its own request, and adds the
    success message twice. *)
Theorem same_upload_twice_two_rows
    (FC : option UploadedFile → except ValidationError UploadedFile)
    (now1 now2 : Z) (request : views.HttpRequest) (w : views.World)
    (f : UploadedFile) :
  views.method request = "POST" →
  forms.clean_fields FC (views.FILES request) = Return f →
  let w1 := (views.upload_file FC now1 request w).2 in
  let w2 := (views.upload_file FC now2 request w1).2 in
  let n := models.next_id (views.db w) in
  models.get_object_or_404 (views.db w2) n
  = Return (models.mk n (uploadedfile.name f) (uploadedfile.data f)
              (uploadedfile.content_type f) (Some now1))
  ∧ models.get_object_or_404 (views.db w2) (n + 1)
    = Return (models.mk (n + 1) (uploadedfile.name f) (uploadedfile.data f)
                (uploadedfile.content_type f) (Some now2))
  ∧ models.next_id (views.db w2) = n + 2
  ∧ views.messages w2
    = views.messages w
      ++ ["File uploaded successfully!"; "File uploaded successfully!"].
Proof.
  intros Hpost Hclean w1 w2 n. unfold w2, w1, n.
  rewrite !(accepted_upload_creates _ _ _ _ _ Hpost Hclean).
  unfold models.get_object_or_404.
  cbn [snd views.db views.messages models.create models.rows models.next_id].
  rewrite lookup_insert_ne by lia.
  rewrite !lookup_insert_eq, <- app_assoc.
  repeat split. lia.
Qed.

Lemma same_upload_twice_two_rows_witness :
  let w := views.mkWorld models.empty [] in
  let w1 := (views.upload_file forms.FileField_clean_default 30
               (sample.post sample.png10) w).2 in
  let w2 := (views.upload_file forms.FileField_clean_default 40
               (sample.post sample.png10) w1).2 in
  let n := models.next_id (views.db w) in
  models.get_object_or_404 (views.db w2) n
  = Return (models.mk n (uploadedfile.name sample.png10)
              (uploadedfile.data sample.png10)
              (uploadedfile.content_type sample.png10) (Some 30))
  ∧ models.get_object_or_404 (views.db w2) (n + 1)
    = Return (models.mk (n + 1) (uploadedfile.name sample.png10)
                (uploadedfile.data sample.png10)
                (uploadedfile.content_type sample.png10) (Some 40))
  ∧ models.next_id (views.db w2) = n + 2
  ∧ views.messages w2
    = views.messages w
      ++ ["File uploaded successfully!"; "File uploaded successfully!"].
Proof.
  apply (same_upload_twice_two_rows forms.FileField_clean_default 30 40
           (sample.post sample.png10) (views.mkWorld models.empty [])
           sample.png10).
  - reflexivity.
  - vm_compute. reflexivity.
Defined.

(** ** The listing of the upload page *)

Section listing_facts.

Implicit Types (t : models.Table) (f g : File) (l : list File).

Lemma all_length t : length (models.all t) = size (models.rows t).
Proof. unfold models.all. by rewrite length_fmap, length_map_to_list. Qed.

Lemma order_by_length l : length (models.order_by_id_desc l) = length l.
Proof. apply Permutation_length, order_by_perm. Qed.

Lemma all_ids t :
  models.table_ok t → models.id <$> models.all t = (map_to_list (models.rows t)).*1.
Proof.
  intros Hok. unfold models.all. rewrite <- list_fmap_compose.
  apply list_fmap_ext. intros i [k f] Hi. cbn.
  apply list_elem_of_lookup_2, elem_of_map_to_list in Hi.
  by destruct (Hok _ _ Hi).
Qed.

Lemma all_ids_NoDup t : models.table_ok t → NoDup (models.id <$> models.all t).
Proof. intros Hok. rewrite (all_ids _ Hok). apply NoDup_fst_map_to_list. Qed.

Lemma strictly_sorted l :
  StronglySorted models.id_desc l →
  NoDup (models.id <$> l) →
  StronglySorted (λ f g, models.id g < models.id f) l.
Proof.
  induction 1 as [|f l Hl IH Hf]; intros Hnd; [constructor|].
  rewrite fmap_cons in Hnd. apply NoDup_cons in Hnd as [Hnotin Hnd].
  constructor; [by apply IH|].
  rewrite Forall_forall in Hf. apply Forall_forall. intros g Hg.
  pose proof (Hf g Hg) as Hle. unfold models.id_desc in Hle.
  assert (models.id g ≠ models.id f); [|lia].
  intros Heq. apply Hnotin. rewrite <- Heq. by apply list_elem_of_fmap_2.
Qed.

Lemma StronglySorted_take_n {A} (R : relation A) (n : nat) (xs : list A) :
  StronglySorted R xs → StronglySorted R (take n xs).
Proof.
  intros Hs. revert n. induction Hs as [|x xs Hs IH Hx]; intros [|n]; cbn;
    try constructor; [apply IH|].
  apply Forall_forall. intros y Hy. rewrite Forall_forall in Hx.
  apply Hx. by apply (subseteq_take n xs).
Qed.

Lemma order_by_strict t :
  models.table_ok t →
  StronglySorted (λ f g, models.id g < models.id f)
    (models.order_by_id_desc (models.all t)).
Proof.
  intros Hok. apply strictly_sorted.
  - pose proof id_desc_trans as Htrans.
    apply Sorted_StronglySorted; [exact Htrans|apply order_by_sorted].
  - rewrite order_by_perm. by apply all_ids_NoDup.
Qed.

Lemma reachable_dom t k :
  models.reachable t →
  is_Some (models.rows t !! k) ↔ 1 ≤ k < models.next_id t.
Proof.
  induction 1 as [|now name content ct t Hreach IH].
  - cbn. rewrite lookup_empty. split; [by intros [? [=]]|lia].
  - cbn. rewrite lookup_insert. case_decide as Hk.
    + subst k. split; [|by eauto]. intros _.
      assert (1 ≤ models.next_id t); [|lia].
      clear IH. induction Hreach; cbn; lia.
    + rewrite IH. lia.
Qed.

Lemma reachable_next_id t : models.reachable t → 1 ≤ models.next_id t.
Proof. induction 1; cbn; lia. Qed.

Lemma order_by_ids t :
  models.reachable t →
  models.id <$> models.order_by_id_desc (models.all t)
  = reverse (seqZ 1 (models.next_id t - 1)).
Proof.
  induction 1 as [|now name content ct t Hreach IH].
  - vm_compute. reflexivity.
  - rewrite (order_by_create _ _ _ _ _ (reachable_table_ok _ Hreach)).
    rewrite fmap_cons, IH. cbn [models.create fst snd models.next_id models.id].
    pose proof (reachable_next_id _ Hreach).
    replace (models.next_id t + 1 - 1) with ((models.next_id t - 1) + 1) by lia.
    rewrite seqZ_app by lia.
    replace (seqZ (1 + (models.next_id t - 1)) 1) with [models.next_id t].
    + by rewrite reverse_snoc.
    + rewrite seqZ_cons by lia. rewrite seqZ_nil by lia. f_equal. lia.
Qed.

End listing_facts.

Lemma page_files FC now request w template_name form files :
  (views.upload_file FC now request w).1
  = Return (views.render template_name form files) →
  files = take 5 (models.order_by_id_desc (models.all (views.db w))).
Proof.
  destruct (upload_file_cases FC now request w) as [[form' ->]|(f & _ & _ & ->)];
    cbn [fst]; by intros [= _ _ <-].
Qed.

(** X10: whenever [upload_file] renders the page, for a GET or for a
    rejected POST, the page lists five files, or all the rows of the table
    when there are fewer than five. *)
Theorem page_lists_at_most_five
    (FC : option UploadedFile → except ValidationError UploadedFile)
    (now : Z) (request : views.HttpRequest) (w : views.World)
    (template_name : string) (form : forms.Form) (files : list File) :
  (views.upload_file FC now request w).1
  = Return (views.render template_name form files) →
  length files = Nat.min 5 (size (models.rows (views.db w))).
Proof.
  intros ->%page_files.
  by rewrite length_take, order_by_length, all_length.
Qed.

Lemma page_lists_at_most_five_witness :
  length sample.recent7
  = Nat.min 5 (size (models.rows (views.db (views.mkWorld sample.table7 [])))).
Proof.
  apply (page_lists_at_most_five forms.FileField_clean_default 20 sample.get
           (views.mkWorld sample.table7 []) "file_manager/upload.html"
           forms.FileUploadForm_unbound sample.recent7).
  vm_compute. reflexivity.
Defined.



(** X12: the files of a rendered page are in strictly descending order of
    [id]: every file has a larger id than each file listed after it, so no
    file is listed twice. *)
Theorem page_files_strictly_descending
    (FC : option UploadedFile → except ValidationError UploadedFile)
    (now : Z) (request : views.HttpRequest) (w : views.World)
    (template_name : string) (form : forms.Form) (files : list File) :
  models.table_ok (views.db w) →
  (views.upload_file FC now request w).1
  = Return (views.render template_name form files) →
  StronglySorted (λ f g, models.id g < models.id f) files.
Proof.
  intros Hok ->%page_files.
  by apply StronglySorted_take_n, order_by_strict.
Qed.

Lemma page_files_strictly_descending_witness :
  StronglySorted (λ f g, models.id g < models.id f) sample.recent7.
Proof.
  apply (page_files_strictly_descending forms.FileField_clean_default 20
           sample.get (views.mkWorld sample.table7 [])
           "file_manager/upload.html" forms.FileUploadForm_unbound
           sample.recent7).
  - apply reachable_table_ok. unfold sample.table7. cbn zeta. repeat constructor.
  - vm_compute. reflexivity.
Defined.



(** X14: in a table built from the empty one by [create] alone,
    [order_by('-id')] lists the ids from the last one assigned down to 1,
    so the page shows the five highest of them, newest first, however many
    rows were created. *)
Theorem listing_ids_count_down (t : models.Table) :
  models.reachable t →
  models.id <$> models.order_by_id_desc (models.all t)
  = reverse (seqZ 1 (models.next_id t - 1))
  ∧ models.id <$> take 5 (models.order_by_id_desc (models.all t))
    = take 5 (reverse (seqZ 1 (models.next_id t - 1))).
Proof.
  intros Hreach. split; [by apply order_by_ids|].
  by rewrite fmap_take, order_by_ids.
Qed.

Lemma listing_ids_count_down_witness :
  models.id <$> models.order_by_id_desc (models.all sample.table7)
  = reverse (seqZ 1 (models.next_id sample.table7 - 1))
  ∧ models.id <$> take 5 (models.order_by_id_desc (models.all sample.table7))
    = take 5 (reverse (seqZ 1 (models.next_id sample.table7 - 1))).
Proof.
  apply (listing_ids_count_down sample.table7).
  unfold sample.table7. cbn zeta. repeat constructor.
Defined.

(** X15: after an accepted POST the next rendering of the page lists the
    new file first, with the id the counter stood at, the uploaded name,
    bytes and declared type and the time of the POST, followed by the first
    four files of the listing before; [str] of the new file is the uploaded
    name. *)
Theorem upload_then_listing
    (FC : option UploadedFile → except ValidationError UploadedFile)
    (now later : Z) (request request' : views.HttpRequest) (w : views.World)
    (f : UploadedFile) :
  models.table_ok (views.db w) →
  views.method request = "POST" →
  forms.clean_fields FC (views.FILES request) = Return f →
  views.method request' ≠ "POST" →
  let w' := (views.upload_file FC now request w).2 in
  let new := models.mk (models.next_id (views.db w)) (uploadedfile.name f)
               (uploadedfile.data f) (uploadedfile.content_type f) (Some now) in
  (views.upload_file FC later request' w').1
  = Return (views.render "file_manager/upload.html" forms.FileUploadForm_unbound
              (new :: take 4 (models.order_by_id_desc
                                (models.all (views.db w)))))
  ∧ models.__str__ new = uploadedfile.name f.
Proof.
  intros Hok Hpost Hclean Hother w' new. unfold w'.
  rewrite (accepted_upload_creates _ _ _ _ _ Hpost Hclean).
  rewrite (other_method_page FC later request' _ Hother).
  cbn [fst snd views.db].
  by rewrite (order_by_create _ _ _ _ _ Hok).
Qed.

Lemma upload_then_listing_witness :
  let w := views.mkWorld sample.table1 [] in
  let w' := (views.upload_file forms.FileField_clean_default 2000
               (sample.post sample.png10_renamed) w).2 in
  let new := models.mk (models.next_id (views.db w))
               (uploadedfile.name sample.png10_renamed)
               (uploadedfile.data sample.png10_renamed)
               (uploadedfile.content_type sample.png10_renamed) (Some 2000) in
  (views.upload_file forms.FileField_clean_default 3000 sample.get w').1
  = Return (views.render "file_manager/upload.html" forms.FileUploadForm_unbound
              (new :: take 4 (models.order_by_id_desc
                                (models.all (views.db w)))))
  ∧ models.__str__ new = uploadedfile.name sample.png10_renamed.
Proof.
  apply (upload_then_listing forms.FileField_clean_default 2000 3000
           (sample.post sample.png10_renamed) sample.get
           (views.mkWorld sample.table1 []) sample.png10_renamed).
  - apply table_ok_create, table_ok_empty.
  - reflexivity.
  - vm_compute. reflexivity.
  - discriminate.
Defined.
